(** * notify-booking: the booking notification Lambda

    A shallow embedding of [src/backend/booking/src/notify-booking/notify.py]:
    the values the handler receives from Step Functions, the exceptions it
    raises, the SNS publish operation it calls and the X-Ray calls around
    it, followed by the properties of [notify_booking] and [lambda_handler]. *)

From Stdlib Require Import String Ascii ZArith NArith List Bool.
From Stdlib Require Import DecimalString.
Import ListNotations.

Set Warnings "-register-all".

Local Open Scope list_scope.
Local Open Scope string_scope.

(** ** Python values *)

Module Py.

(** The values a decoded JSON event is made of.  A [dict] keeps its items
    in insertion order; its keys are strings.  A [float] is held as the
    text [repr] gives it, which determines it: 0.0, -0.0, 1.5, 1e+16, inf,
    nan.  A string is held as its UTF-8 bytes. *)
Inductive pyval : Type :=
| PNone
| PBool (b : bool)
| PInt (z : Z)
| PFloat (r : string)
| PStr (s : string)
| PList (l : list pyval)
| PDict (d : list (string * pyval)).

Definition dict : Type := list (string * pyval).

(** [bool(v)]: the truth value Python gives to [v] in [if v], [not v] and
    [a if v else b].  The floats that are zero are 0.0 and -0.0. *)
Definition truthy (v : pyval) : bool :=
  match v with
  | PNone => false
  | PBool b => b
  | PInt z => negb (Z.eqb z 0)
  | PFloat r => negb (String.eqb r "0.0" || String.eqb r "-0.0")
  | PStr s => negb (String.eqb s "")
  | PList l => match l with [] => false | _ :: _ => true end
  | PDict d => match d with [] => false | _ :: _ => true end
  end.

(** [type(v).__name__], as it appears in the interpreter's messages. *)
Definition type_name (v : pyval) : string :=
  match v with
  | PNone => "NoneType"
  | PBool _ => "bool"
  | PInt _ => "int"
  | PFloat _ => "float"
  | PStr _ => "str"
  | PList _ => "list"
  | PDict _ => "dict"
  end.

(** The values that can be the key of a dictionary: a list and a
    dictionary have no hash. *)
Definition hashable (v : pyval) : bool :=
  match v with
  | PList _ | PDict _ => false
  | _ => true
  end.

(** *** Characters *)

Definition hex_digit (n : N) : ascii :=
  match n with
  | 0 => "0" | 1 => "1" | 2 => "2" | 3 => "3" | 4 => "4" | 5 => "5"
  | 6 => "6" | 7 => "7" | 8 => "8" | 9 => "9" | 10 => "a" | 11 => "b"
  | 12 => "c" | 13 => "d" | 14 => "e" | _ => "f"
  end%N%char.

(** [n] in [width] hexadecimal digits. *)
Fixpoint hex (width : nat) (n : N) : string :=
  match width with
  | O => ""
  | S w => hex w (n / 16) ++ String (hex_digit (n mod 16)) ""
  end.

Definition continuation (c : ascii) : N := N.land (N_of_ascii c) 63.

(** The code points of a UTF-8 string. *)
Fixpoint code_points (s : string) : list N :=
  match s with
  | EmptyString => []
  | String c rest =>
      let b := N_of_ascii c in
      if N.ltb b 192 then b :: code_points rest
      else if N.ltb b 224 then
        match rest with
        | String c1 rest1 =>
            ((b - 192) * 64 + continuation c1)%N :: code_points rest1
        | _ => b :: code_points rest
        end
      else if N.ltb b 240 then
        match rest with
        | String c1 (String c2 rest2) =>
            ((b - 224) * 4096 + continuation c1 * 64 + continuation c2)%N
            :: code_points rest2
        | _ => b :: code_points rest
        end
      else
        match rest with
        | String c1 (String c2 (String c3 rest3)) =>
            ((b - 240) * 262144 + continuation c1 * 4096
             + continuation c2 * 64 + continuation c3)%N
            :: code_points rest3
        | _ => b :: code_points rest
        end
  end.

Definition byte (n : N) : string := String (ascii_of_N n) "".

(** The UTF-8 bytes of a code point. *)
Definition utf8 (cp : N) : string :=
  if N.ltb cp 128 then byte cp
  else if N.ltb cp 2048 then
    byte (192 + cp / 64) ++ byte (128 + cp mod 64)
  else if N.ltb cp 65536 then
    byte (224 + cp / 4096) ++ byte (128 + cp / 64 mod 64)
    ++ byte (128 + cp mod 64)
  else
    byte (240 + cp / 262144) ++ byte (128 + cp / 4096 mod 64)
    ++ byte (128 + cp / 64 mod 64) ++ byte (128 + cp mod 64).

Fixpoint contains (c : ascii) (s : string) : bool :=
  match s with
  | EmptyString => false
  | String x rest => Ascii.eqb x c || contains c rest
  end.

(** The double quote character, code 34. *)
Definition dquote : ascii :=
  Ascii false true false false false true false false.

Definition int_repr (z : Z) : string := NilZero.string_of_int (Z.to_int z).

(** *** Rendering: [repr] and [str] *)

Section Rendering.

(** [str.isprintable] on a character outside ASCII: whether the Unicode
    database of the interpreter gives it a category other than Other and
    Separator. *)
Variable isprintable : N -> bool.

(** The quote [repr] puts around a string: a double quote when the text
    holds a single quote and no double quote, a single quote otherwise. *)
Definition repr_quote (s : string) : ascii :=
  if contains "'" s && negb (contains dquote s) then dquote else "'"%char.

(** One character of a string under [repr]: the quote and the backslash
    are escaped, tab, line feed and carriage return have their letter, the
    other ASCII controls and every character that is not printable are
    written in hexadecimal, on two, four or eight digits, and a printable
    character is copied. *)
Definition repr_char (q : ascii) (cp : N) : string :=
  if N.eqb cp (N_of_ascii q) || N.eqb cp 92 then String "\" (byte cp)
  else if N.eqb cp 9 then "\t"
  else if N.eqb cp 10 then "\n"
  else if N.eqb cp 13 then "\r"
  else if N.ltb cp 32 || N.eqb cp 127 then "\x" ++ hex 2 cp
  else if N.ltb cp 127 then byte cp
  else if isprintable cp then utf8 cp
  else if N.ltb cp 256 then "\x" ++ hex 2 cp
  else if N.ltb cp 65536 then "\u" ++ hex 4 cp
  else "\U" ++ hex 8 cp.

Definition str_repr (s : string) : string :=
  let q := repr_quote s in
  String q (String.concat "" (map (repr_char q) (code_points s))
            ++ String q "").

Fixpoint repr (v : pyval) : string :=
  match v with
  | PNone => "None"
  | PBool true => "True"
  | PBool false => "False"
  | PInt z => int_repr z
  | PFloat r => r
  | PStr s => str_repr s
  | PList l => "[" ++ String.concat ", " (map repr l) ++ "]"
  | PDict d =>
      "{" ++ String.concat ", "
               (map (fun kv => match kv with
                               | (k, x) => str_repr k ++ ": " ++ repr x
                               end) d) ++ "}"
  end.

(** [str(v)], which is also what an f-string field [{v}] renders. *)
Definition str (v : pyval) : string :=
  match v with
  | PStr s => s
  | _ => repr v
  end.

End Rendering.

(** *** Dictionaries *)

Fixpoint lookup (k : string) (d : dict) : option pyval :=
  match d with
  | [] => None
  | (k', v) :: rest => if String.eqb k' k then Some v else lookup k rest
  end.

(** [d.get(key, default)] on a dictionary. *)
Definition dict_get (key : string) (d : dict) (default : pyval) : pyval :=
  match lookup key d with
  | Some v => v
  | None => default
  end.

End Py.

Import Py.

(** ** Exceptions, outcomes and the runtime *)

(** The failures of a client call that botocore raises under another
    class than [ClientError]: the parameters do not pass validation, the
    endpoint cannot be reached, no credentials are found. *)
Inductive botocore_error : Type :=
| ParamValidationError (report : string)
| EndpointConnectionError (endpoint_url : string)
| NoCredentialsError.

(** The exceptions that can leave the module: the interpreter's own, raised
    by a failed attribute access, subscript or hash, [ValueError] raised by
    the handler, botocore's [ClientError] with the parsed error response it
    carries, botocore's other errors, and the module's
    [BookingNotificationException].  The last is built from a message in
    [notify_booking] and from an exception object in [lambda_handler]. *)
Inductive exn : Type :=
| ValueError (arg : pyval)
| AttributeError (arg : pyval)
| KeyError (arg : pyval)
| TypeError (arg : pyval)
| ClientError (response : dict)
| BotoCoreError (e : botocore_error)
| BookingNotificationException (arg : exn_arg)
with exn_arg : Type :=
| Val (v : pyval)
| Exc (e : exn).

Definition class_name (e : exn) : string :=
  match e with
  | ValueError _ => "ValueError"
  | AttributeError _ => "AttributeError"
  | KeyError _ => "KeyError"
  | TypeError _ => "TypeError"
  | ClientError _ => "ClientError"
  | BotoCoreError (ParamValidationError _) => "ParamValidationError"
  | BotoCoreError (EndpointConnectionError _) => "EndpointConnectionError"
  | BotoCoreError NoCredentialsError => "NoCredentialsError"
  | BookingNotificationException _ => "BookingNotificationException"
  end.

(** [str(e)] of a [BookingNotificationException] built from a message,
    directly or through the exceptions that wrap it: the text of the
    message at the end of the chain. *)
Fixpoint notification_message (isprintable : N -> bool) (e : exn)
  : option string :=
  match e with
  | BookingNotificationException (Val v) => Some (str isprintable v)
  | BookingNotificationException (Exc e') =>
      notification_message isprintable e'
  | _ => None
  end.

Inductive outcome (A : Type) : Type :=
| Return (a : A)
| Raise (e : exn).
Arguments Return {A} a.
Arguments Raise {A} e.

(** The arguments of one [sns.publish] call. *)
Record message_attribute : Type :=
  { DataType : string; StringValue : string }.

Record publish_request : Type :=
  { TopicArn : option string;
    Message : string;
    Subject : string;
    MessageAttributes : list (string * message_attribute) }.

(** How a call of [sns.publish] ends: it returns the parsed response of
    the service, it raises the [ClientError] that carries the parsed error
    response of the service, or it raises another error of botocore, as it
    does for a request without a topic, which does not pass the validation
    of the parameters. *)
Inductive publish_outcome : Type :=
| PublishResponse (ret : dict)
| PublishClientError (response : dict)
| PublishFailure (e : botocore_error).

(** The calls the module makes on the X-Ray recorder and on the open
    subsegment, and that return: the subsegments of the decorator and of
    the [with] block, the annotations and the metadata.  The subsegment
    that the patched client opens around the publish call is the
    library's own and is not listed. *)
Inductive xray_call : Type :=
| BeginSubsegment (name : string)
| PutAnnotation (subsegment key : string) (value : pyval)
| PutMetadata (subsegment : string) (key value : pyval) (namespace : string)
| EndSubsegment (name : string) (exception : option exn).

(** What an invocation acts on: the publish calls made on the client so
    far, and the calls made on the tracing recorder. *)
Record runtime : Type :=
  { sns_calls : list publish_request;
    xray_calls : list xray_call }.

(** ** A state and exception monad for the module's statements *)

Definition M (A : Type) : Type := runtime -> outcome A * runtime.

Definition ret {A} (a : A) : M A := fun w => (Return a, w).

Definition raise {A} (e : exn) : M A := fun w => (Raise e, w).

Definition bind {A B} (c : M A) (k : A -> M B) : M B :=
  fun w =>
    match c w with
    | (Return a, w') => k a w'
    | (Raise e, w') => (Raise e, w')
    end.

Notation "x <- c ;; k" := (bind c (fun x => k))
  (at level 61, c at next level, right associativity).
Notation "c ;;; k" := (bind c (fun _ => k))
  (at level 61, right associativity).

(** [try: body except ...: handler]: [handler e] is [Some h] when a clause
    matches the exception [e], which then runs [h]; an exception no clause
    matches goes on to the caller. *)
Definition try_except {A} (body : M A) (handler : exn -> option (M A)) : M A :=
  fun w =>
    match body w with
    | (Return a, w') => (Return a, w')
    | (Raise e, w') =>
        match handler e with
        | Some h => h w'
        | None => (Raise e, w')
        end
    end.

Definition xray (c : xray_call) : M unit :=
  fun w => (Return tt, {| sns_calls := sns_calls w;
                          xray_calls := xray_calls w ++ [c] |}).

(** [xray_recorder.capture(name)], as a decorator and as a [with] block: a
    subsegment is opened, the body runs, and the subsegment is closed,
    recording the exception when the body raised one, which goes on. *)
Definition capture {A} (name : string) (body : M A) : M A :=
  fun w =>
    match (xray (BeginSubsegment name) ;;; body) w with
    | (Return a, w') => (xray (EndSubsegment name None) ;;; ret a) w'
    | (Raise e, w') => (xray (EndSubsegment name (Some e)) ;;; raise e) w'
    end.

(** [subsegment.put_metadata(key, value, namespace)]: the recorder keeps
    the metadata of a namespace in a dictionary under [key], and a key
    without a hash makes that assignment raise [TypeError]. *)
Definition put_metadata (subsegment : string) (key value : pyval)
    (namespace : string) : M unit :=
  if hashable key
  then xray (PutMetadata subsegment key value namespace)
  else raise (TypeError
                (PStr ("unhashable type: '" ++ type_name key ++ "'"))).

(** [o.get(key, default)]: only a [dict] has the method. *)
Definition get (o : pyval) (key : string) (default : pyval) : M pyval :=
  match o with
  | PDict d => ret (dict_get key d default)
  | _ =>
      raise (AttributeError
               (PStr ("'" ++ type_name o ++ "' object has no attribute 'get'")))
  end.

(** The text of the [TypeError] a string subscript raises on a value that
    is no [dict], in the words of CPython 3.7. *)
Definition subscript_error (o : pyval) : string :=
  match o with
  | PStr _ => "string indices must be integers"
  | PList _ => "list indices must be integers or slices, not str"
  | _ => "'" ++ type_name o ++ "' object is not subscriptable"
  end.

(** [o[key]] for a string [key]. *)
Definition getitem (o : pyval) (key : string) : M pyval :=
  match o with
  | PDict d =>
      match lookup key d with
      | Some v => ret v
      | None => raise (KeyError (PStr key))
      end
  | _ => raise (TypeError (PStr (subscript_error o)))
  end.

(** ** [json.dumps]

    The serializer of the standard library with its default options: items
    separated by a comma and a space, keys and values by a colon and a
    space, and every character outside the printable ASCII range escaped.
    A string is read as UTF-8 to find its characters. *)

Module Json.

Definition backslash (c : ascii) : string := String "\" (String c "").

Definition escape (cp : N) : string :=
  if N.eqb cp 34 then backslash dquote
  else if N.eqb cp 92 then backslash "\"
  else if N.eqb cp 8 then backslash "b"
  else if N.eqb cp 9 then backslash "t"
  else if N.eqb cp 10 then backslash "n"
  else if N.eqb cp 12 then backslash "f"
  else if N.eqb cp 13 then backslash "r"
  else if N.leb 32 cp && N.leb cp 126 then String (ascii_of_N cp) ""
  else if N.ltb cp 65536 then backslash "u" ++ hex 4 cp
  else
    let v := (cp - 65536)%N in
    backslash "u" ++ hex 4 (55296 + v / 1024) ++
    backslash "u" ++ hex 4 (56320 + v mod 1024).

Definition dumps_str (s : string) : string :=
  String dquote (String.concat "" (map escape (code_points s)) ++
                 String dquote "").

(** A float is written as [repr] writes it, but for the three that JSON
    has no number for. *)
Definition dumps_float (r : string) : string :=
  if String.eqb r "nan" then "NaN"
  else if String.eqb r "inf" then "Infinity"
  else if String.eqb r "-inf" then "-Infinity"
  else r.

Fixpoint dumps (v : pyval) : string :=
  match v with
  | PNone => "null"
  | PBool true => "true"
  | PBool false => "false"
  | PInt z => int_repr z
  | PFloat r => dumps_float r
  | PStr s => dumps_str s
  | PList l => "[" ++ String.concat ", " (map dumps l) ++ "]"
  | PDict d =>
      "{" ++ String.concat ", "
               (map (fun kv => match kv with
                               | (k, x) => dumps_str k ++ ": " ++ dumps x
                               end) d) ++ "}"
  end.

End Json.

(** ** Stubs

    A messaging service that accepts every request with one delivery
    identifier, one that rejects every request with one error message, an
    empty runtime and a topic, for the examples that close the file. *)

Definition publish_succeeds (message_id : string)
  : list publish_request -> publish_request -> publish_outcome :=
  fun _ _ => PublishResponse [("MessageId", PStr message_id)].

Definition publish_fails (code message : string)
  : list publish_request -> publish_request -> publish_outcome :=
  fun _ _ =>
    PublishClientError
      [("Error", PDict [("Message", PStr message); ("Code", PStr code)])].

(** A client that validates the parameters as boto3 does: a request
    without a topic is refused before it is sent, every other request is
    accepted with one delivery identifier. *)
Definition publish_validating (message_id : string)
  : list publish_request -> publish_request -> publish_outcome :=
  fun _ request =>
    match TopicArn request with
    | None =>
        PublishFailure
          (ParamValidationError "Invalid type for parameter TopicArn")
    | Some _ => PublishResponse [("MessageId", PStr message_id)]
    end.

(** A stand-in for the Unicode database: the characters up to U+00FF that
    are not printable are the controls from U+0080 to U+009F, the no-break
    space U+00A0 and the soft hyphen U+00AD; the characters above count as
    printable here. *)
Definition latin1 (cp : N) : bool :=
  negb (N.leb 128 cp && N.leb cp 160 || N.eqb cp 173).

Definition idle : runtime := {| sns_calls := []; xray_calls := [] |}.

Definition topic : option string :=
  Some "arn:aws:sns:eu-west-1:123456789012:booking".

(** A complete event, the payload the handler makes of it, and an event
    whose fields are all [None]. *)

Definition booking_event : pyval :=
  PDict [("customerId", PStr "cust-1");
         ("payment", PDict [("price", PStr "100")]);
         ("bookingReference", PStr "BK-9")].

Definition empty_booking_event : pyval :=
  PDict [("customerId", PNone);
         ("payment", PDict [("price", PNone)]);
         ("bookingReference", PNone)].

Definition booking_payload : pyval :=
  PDict [("customerId", PStr "cust-1"); ("price", PStr "100")].

(** ** What the messaging service's answers carry *)

(** [response["Error"]["Message"]] of an error response, when it is there. *)
Definition error_message (response : dict) : option pyval :=
  match lookup "Error" response with
  | Some (PDict error) => lookup "Message" error
  | _ => None
  end.

(** An answer in the shape of the service's API: a response carries a
    [MessageId], an error response an [Error] with its [Message].  A call
    that fails without an answer of the service has none to fall short. *)
Definition well_formed (o : publish_outcome) : bool :=
  match o with
  | PublishResponse r =>
      match lookup "MessageId" r with Some _ => true | None => false end
  | PublishClientError response =>
      match error_message response with Some _ => true | None => false end
  | PublishFailure _ => true
  end.

(** The runtime as the handler's body finds it: the decorator has opened
    the handler's subsegment. *)
Definition in_handler (w : runtime) : runtime :=
  {| sns_calls := sns_calls w;
     xray_calls := xray_calls w ++ [BeginSubsegment "handler"] |}.

(** The handler's result, as its [except] clause and its last line make it
    from the result of [notify_booking]. *)
Definition handler_result (o : outcome pyval) : outcome pyval :=
  match o with
  | Return (PDict items) =>
      match lookup "notificationId" items with
      | Some v => Return v
      | None => Raise (KeyError (PStr "notificationId"))
      end
  | Return r => Raise (TypeError (PStr (subscript_error r)))
  | Raise (BookingNotificationException arg) =>
      Raise (BookingNotificationException
               (Exc (BookingNotificationException arg)))
  | Raise e => Raise e
  end.

Definition raised (o : outcome pyval) : option exn :=
  match o with
  | Return _ => None
  | Raise e => Some e
  end.

(** ** Shapes of events and of traces *)

(** An event the extraction of the handler goes through: a dictionary
    whose [payment] is a dictionary too. *)
Definition extractable (event : pyval) : bool :=
  match event with
  | PDict d =>
      match dict_get "payment" d (PBool false) with
      | PDict _ => true
      | _ => false
      end
  | _ => false
  end.

(** The text of the [TypeError] a value without a hash raises as a key. *)
Definition unhashable (v : pyval) : exn :=
  TypeError (PStr ("unhashable type: '" ++ type_name v ++ "'")).

(** What [notify_booking] yields, for a booking reference and the way the
    publish call ends. *)
Definition notify_outcome (booking_reference : pyval) (o : publish_outcome)
  : outcome pyval :=
  match o with
  | PublishResponse r =>
      match lookup "MessageId" r with
      | Some message_id =>
          if hashable booking_reference
          then Return (PDict [("notificationId", message_id)])
          else Raise (unhashable booking_reference)
      | None => Raise (KeyError (PStr "MessageId"))
      end
  | PublishClientError response =>
      match lookup "Error" response with
      | Some (PDict error) =>
          match lookup "Message" error with
          | Some message => Raise (BookingNotificationException (Val message))
          | None => Raise (KeyError (PStr "Message"))
          end
      | Some error => Raise (TypeError (PStr (subscript_error error)))
      | None => Raise (KeyError (PStr "Error"))
      end
  | PublishFailure e => Raise (BotoCoreError e)
  end.

(** The calls [notify_booking] makes on the recorder, for a booking
    reference and the way the publish call ends. *)
Definition notify_trace (booking_reference : pyval) (o : publish_outcome)
  : list xray_call :=
  BeginSubsegment "notify_booking"
  :: PutAnnotation "notify_booking" "BookingReference" booking_reference
  :: match o with
     | PublishResponse r =>
         match lookup "MessageId" r with
         | Some message_id =>
             PutAnnotation "notify_booking" "BookingNotification" message_id
             :: if hashable booking_reference
                then [PutMetadata "notify_booking" booking_reference (PDict r)
                        "notification";
                      EndSubsegment "notify_booking" None]
                else [EndSubsegment "notify_booking"
                        (Some (unhashable booking_reference))]
         | None =>
             [EndSubsegment "notify_booking"
                (Some (KeyError (PStr "MessageId")))]
         end
     | PublishClientError response =>
         [EndSubsegment "notify_booking" (Some (ClientError response))]
     | PublishFailure e =>
         [EndSubsegment "notify_booking" (Some (BotoCoreError e))]
     end.

(** A trace in which subsegments nest: each one that is opened is closed,
    innermost first, and annotations and metadata go to the innermost open
    one.  [opened] lists the subsegments open before the trace. *)
Fixpoint nested (opened : list string) (t : list xray_call) : bool :=
  match t with
  | [] => match opened with [] => true | _ :: _ => false end
  | BeginSubsegment name :: rest => nested (name :: opened) rest
  | PutAnnotation s _ _ :: rest =>
      match opened with
      | top :: _ => String.eqb s top && nested opened rest
      | [] => false
      end
  | PutMetadata s _ _ _ :: rest =>
      match opened with
      | top :: _ => String.eqb s top && nested opened rest
      | [] => false
      end
  | EndSubsegment name _ :: rest =>
      match opened with
      | top :: below => String.eqb name top && nested below rest
      | [] => false
      end
  end.

(** A messaging service that numbers the messages it accepts: the
    identifier it gives is the count of the requests before. *)
Definition publish_numbering
  : list publish_request -> publish_request -> publish_outcome :=
  fun history _ =>
    PublishResponse
      [("MessageId", PStr (int_repr (Z.of_nat (length history))))].

(** A service whose response lacks the identifier. *)
Definition publish_without_id
  : list publish_request -> publish_request -> publish_outcome :=
  fun _ _ => PublishResponse [("ResponseMetadata", PDict [])].

(** ** The module: [notify_booking] and [lambda_handler] *)

Section Notify.

(** The Unicode database of the interpreter, for [repr]. *)
Variable isprintable : N -> bool.

(** [os.getenv("BOOKING_TOPIC")], read once when the module is loaded:
    [None] when the variable is not set. *)
Variable booking_sns_topic : option string.

(** [json.dumps] of the standard library, on the values of an event. *)
Variable json_dumps : pyval -> string.

(** The client's [sns.publish] and the messaging service behind it: how
    the call ends for a request, given the requests made before it.  The
    client of boto3 validates the parameters before it sends anything, and
    ends the call for a request without a topic with
    [ParamValidationError]; the property that rests on it states it as a
    hypothesis. *)
Variable sns_publish : list publish_request -> publish_request -> publish_outcome.

(** The Lambda context object, which the handler does not use. *)
Variable lambda_context : Type.

(** [sns.publish(...)]: the call is made, and returns the parsed response,
    raises the service's [ClientError] or raises botocore's own error. *)
Definition publish (req : publish_request) : M pyval :=
  fun w =>
    let w' := {| sns_calls := sns_calls w ++ [req];
                 xray_calls := xray_calls w |} in
    match sns_publish (sns_calls w) req with
    | PublishResponse r => (Return (PDict r), w')
    | PublishClientError response => (Raise (ClientError response), w')
    | PublishFailure e => (Raise (BotoCoreError e), w')
    end.

Definition successful_subject (booking_reference : pyval) : string :=
  "Booking confirmation for " ++ str isprintable booking_reference.

Definition unsuccessful_subject (booking_reference : pyval) : string :=
  "Unable to process booking for " ++ str isprintable booking_reference.

Definition subject (booking_reference : pyval) : string :=
  if truthy booking_reference
  then successful_subject booking_reference
  else unsuccessful_subject booking_reference.

Definition booking_status (booking_reference : pyval) : string :=
  if truthy booking_reference then "confirmed" else "cancelled".

(** The keyword arguments of the publish call in [notify_booking]. *)
Definition notification (payload booking_reference : pyval) : publish_request :=
  {| TopicArn := booking_sns_topic;
     Message := json_dumps payload;
     Subject := subject booking_reference;
     MessageAttributes :=
       [("Booking.Status",
         {| DataType := "String";
            StringValue := booking_status booking_reference |})] |}.

Definition notify_booking (payload booking_reference : pyval) : M pyval :=
  try_except
    (message_id <-
       capture "notify_booking"
         (xray (PutAnnotation "notify_booking" "BookingReference"
                  booking_reference) ;;;
          r <- publish (notification payload booking_reference) ;;
          message_id <- getitem r "MessageId" ;;
          xray (PutAnnotation "notify_booking" "BookingNotification"
                  message_id) ;;;
          put_metadata "notify_booking" booking_reference r
            "notification" ;;;
          ret message_id) ;;
     ret (PDict [("notificationId", message_id)]))
    (fun e =>
       match e with
       | ClientError response =>
           Some (error <- getitem (PDict response) "Error" ;;
                 message <- getitem error "Message" ;;
                 raise (BookingNotificationException (Val message)))
       | _ => None
       end).

Definition lambda_handler (event : pyval) (context : lambda_context) : M pyval :=
  capture "handler"
    (customer_id <- get event "customerId" (PBool false) ;;
     payment <- get event "payment" (PBool false) ;;
     price <- get payment "price" (PBool false) ;;
     booking_reference <- get event "bookingReference" (PBool false) ;;
     if negb (truthy customer_id) && negb (truthy price)
     then raise (ValueError (PStr "Invalid customer and price"))
     else
       r <- try_except
              (let payload :=
                 PDict [("customerId", customer_id); ("price", price)] in
               notify_booking payload booking_reference)
              (fun e =>
                 match e with
                 | BookingNotificationException _ =>
                     Some (raise (BookingNotificationException (Exc e)))
                 | _ => None
                 end) ;;
       getitem r "notificationId").

(** ** Properties of [notify_booking] *)

Ltac run :=
  unfold lambda_handler, notify_booking, try_except, capture, bind, publish,
    put_metadata, xray, ret, raise, getitem, get, error_message, well_formed
    in *;
  simpl in *.

Ltac cases :=
  repeat match goal with
    | |- context [match sns_publish ?h ?r with _ => _ end] =>
        destruct (sns_publish h r) eqn:?; simpl in *
    | |- context [match lookup ?k ?d with _ => _ end] =>
        destruct (lookup k d) eqn:?; simpl in *
    | |- context [match ?v with PNone => _ | _ => _ end] =>
        destruct v; simpl in *
    | |- context [if hashable ?v then _ else _] =>
        destruct (hashable v) eqn:?; simpl in *
    end.

Ltac outcomes :=
  unfold notify_outcome, unhashable in *; cases.

(** Every run of [notify_booking] issues its publish call once. *)
Lemma notify_booking_sns_calls (payload booking_reference : pyval) (w : runtime) :
  sns_calls (snd (notify_booking payload booking_reference w)) =
  (sns_calls w ++ [notification payload booking_reference])%list.
Proof.
  run. cases; reflexivity.
Qed.



(** C7: for a truthy [booking_reference] the subject is "Booking
    confirmation for " followed by the reference, the status is
    "confirmed", and [notify_booking] publishes with exactly that subject
    and status. *)
Theorem notify_booking_confirmed
    (payload booking_reference : pyval) (w : runtime) :
  truthy booking_reference = true ->
  subject booking_reference =
    "Booking confirmation for " ++ str isprintable booking_reference /\
  booking_status booking_reference = "confirmed" /\
  sns_calls (snd (notify_booking payload booking_reference w)) =
    (sns_calls w ++
     [{| TopicArn := booking_sns_topic;
         Message := json_dumps payload;
         Subject := "Booking confirmation for " ++ str isprintable booking_reference;
         MessageAttributes :=
           [("Booking.Status",
             {| DataType := "String"; StringValue := "confirmed" |})] |}])%list.
Proof.
  intros H.
  rewrite notify_booking_sns_calls.
  unfold notification, subject, booking_status, successful_subject.
  rewrite H. auto.
Qed.

(** C10: the one publish call of [notify_booking] carries exactly one
    message attribute, keyed "Booking.Status", of data type "String", and
    its value is "confirmed" or "cancelled", whatever the payload and the
    booking reference. *)
Theorem notify_booking_status_attribute
    (payload booking_reference : pyval) (w : runtime) :
  exists (request : publish_request) (status : string),
    sns_calls (snd (notify_booking payload booking_reference w)) =
      (sns_calls w ++ [request])%list /\
    MessageAttributes request =
      [("Booking.Status", {| DataType := "String"; StringValue := status |})] /\
    (status = "confirmed" \/ status = "cancelled").
Proof.
  exists (notification payload booking_reference),
         (booking_status booking_reference).
  split; [ apply notify_booking_sns_calls | ].
  split; [ reflexivity | ].
  unfold booking_status. destruct (truthy booking_reference); auto.
Qed.

(** What [notify_booking] yields for each end of the publish call. *)
Lemma notify_booking_outcome (payload booking_reference : pyval) (w : runtime) :
  fst (notify_booking payload booking_reference w) =
  notify_outcome booking_reference
    (sns_publish (sns_calls w) (notification payload booking_reference)).
Proof.
  unfold notify_outcome, unhashable. run. cases; reflexivity.
Qed.


(** C4, as amended: a provider error carrying the message [message] makes
    [notify_booking] raise [BookingNotificationException(message)], and it
    raises that exception for a provider error alone; it is the one error
    [notify_booking] makes itself.  The other exceptions that leave it are
    raised below it and go through as they are: botocore's own error when
    the publish call fails without an answer of the service, the
    [KeyError] or [TypeError] of a subscript on an answer that is not in
    the shape of the API, and the [TypeError] of a booking reference
    without a hash.  The publish call is made once, never again. *)
Theorem notify_booking_error_path
    (payload booking_reference : pyval) (w : runtime) :
  let answer :=
    sns_publish (sns_calls w) (notification payload booking_reference) in
  (forall response message,
      answer = PublishClientError response ->
      error_message response = Some message ->
      fst (notify_booking payload booking_reference w) =
        Raise (BookingNotificationException (Val message))) /\
  (forall arg,
      fst (notify_booking payload booking_reference w) =
        Raise (BookingNotificationException arg) ->
      exists response message,
        answer = PublishClientError response /\
        error_message response = Some message /\
        arg = Val message) /\
  (forall e,
      fst (notify_booking payload booking_reference w) = Raise e ->
      (exists arg, e = BookingNotificationException arg) \/
      (exists failure, answer = PublishFailure failure /\
                       e = BotoCoreError failure) \/
      (well_formed answer = false /\
       (class_name e = "KeyError" \/ class_name e = "TypeError")) \/
      (hashable booking_reference = false /\
       e = unhashable booking_reference)) /\
  sns_calls (snd (notify_booking payload booking_reference w)) =
    (sns_calls w ++ [notification payload booking_reference])%list.
Proof.
  intros answer.
  rewrite notify_booking_outcome, notify_booking_sns_calls.
  fold answer. unfold notify_outcome, well_formed, error_message.
  destruct answer as [r | response | failure].
  - repeat split.
    + intros ? ? [=].
    + destruct (lookup "MessageId" r);
        [ destruct (hashable booking_reference) | ]; discriminate.
    + intros e He. destruct (lookup "MessageId" r) as [message_id | ].
      * destruct (hashable booking_reference); [ discriminate | ].
        injection He as <-. auto.
      * injection He as <-. right; right; left. auto.
  - repeat split.
    + intros response' message [= <-] Hm.
      destruct (lookup "Error" response) as [[ | | | | | | error] | ];
        try discriminate.
      rewrite Hm. reflexivity.
    + intros arg He. exists response.
      destruct (lookup "Error" response) as [[ | | | | | | error] | ];
        try discriminate.
      destruct (lookup "Message" error) as [message | ]; [ | discriminate ].
      exists message. injection He as <-. auto.
    + intros e He.
      destruct (lookup "Error" response) as [[ | | | | | | error] | ];
        try (injection He as <-; right; right; left; simpl; auto; fail).
      destruct (lookup "Message" error) as [message | ];
        injection He as <-; [ left; eauto | right; right; left; auto ].
  - repeat split.
    + intros ? ? [=].
    + discriminate.
    + intros e [= <-]. right; left. eauto.
Qed.

(** ** Properties of [lambda_handler] *)

(** An event whose [payment] is a dictionary, and in which [customerId] or
    [price] is truthy, runs [notify_booking] inside the handler's
    subsegment. *)
Lemma lambda_handler_valid
    (d p : dict) (context : lambda_context) (w : runtime) :
  let customer_id := dict_get "customerId" d (PBool false) in
  let price := dict_get "price" p (PBool false) in
  let booking_reference := dict_get "bookingReference" d (PBool false) in
  let payload := PDict [("customerId", customer_id); ("price", price)] in
  dict_get "payment" d (PBool false) = PDict p ->
  truthy customer_id || truthy price = true ->
  lambda_handler (PDict d) context w =
    let o := handler_result
               (fst (notify_booking payload booking_reference (in_handler w))) in
    let w' := snd (notify_booking payload booking_reference (in_handler w)) in
    (o, {| sns_calls := sns_calls w';
           xray_calls := xray_calls w' ++
                         [EndSubsegment "handler" (raised o)] |}).
Proof.
  intros customer_id price booking_reference payload Hp Hv.
  unfold lambda_handler, capture, get, bind, xray, ret, raise, getitem, try_except.
  fold customer_id. rewrite Hp. fold price booking_reference payload.
  apply orb_true_iff in Hv.
  replace (negb (truthy customer_id) && negb (truthy price)) with false
    by (destruct Hv as [-> | ->]; simpl; rewrite ?andb_false_r; reflexivity).
  change {| sns_calls := sns_calls w;
            xray_calls := xray_calls w ++ [BeginSubsegment "handler"] |}
    with (in_handler w).
  destruct (notify_booking payload booking_reference (in_handler w))
    as [[r | e] w'] eqn:E; simpl.
  - destruct r as [ | b | z | r' | t | l | items ]; try reflexivity.
    destruct (lookup "notificationId" items); reflexivity.
  - destruct e; reflexivity.
Qed.

(** An event whose [payment] is a dictionary and in which neither
    [customerId] nor [price] is truthy is refused before anything else is
    done. *)
Lemma lambda_handler_invalid
    (d p : dict) (context : lambda_context) (w : runtime) :
  dict_get "payment" d (PBool false) = PDict p ->
  truthy (dict_get "customerId" d (PBool false)) = false ->
  truthy (dict_get "price" p (PBool false)) = false ->
  lambda_handler (PDict d) context w =
    (Raise (ValueError (PStr "Invalid customer and price")),
     {| sns_calls := sns_calls w;
        xray_calls :=
          xray_calls w ++
          [BeginSubsegment "handler";
           EndSubsegment "handler"
             (Some (ValueError (PStr "Invalid customer and price")))] |}).
Proof.
  intros Hp Hc Hv.
  unfold lambda_handler, capture, get, bind, xray, ret, raise.
  rewrite Hp, Hc, Hv. simpl. rewrite <- app_assoc. reflexivity.
Qed.

(** The extraction of [price] fails on an event whose [payment], or the
    default [False] that stands for a missing one, is no dictionary. *)
Lemma lambda_handler_payment_not_dict
    (d : dict) (context : lambda_context) (w : runtime) :
  let payment := dict_get "payment" d (PBool false) in
  let e := AttributeError
             (PStr ("'" ++ type_name payment ++
                    "' object has no attribute 'get'")) in
  (forall p, payment <> PDict p) ->
  lambda_handler (PDict d) context w =
    (Raise e,
     {| sns_calls := sns_calls w;
        xray_calls :=
          xray_calls w ++
          [BeginSubsegment "handler"; EndSubsegment "handler" (Some e)] |}).
Proof.
  intros payment e Hp. subst e.
  unfold lambda_handler, capture, get, bind, xray, ret, raise.
  fold payment.
  destruct payment as [ | b | z | r | t | l | p ]; simpl;
    try (rewrite <- app_assoc; reflexivity).
  exfalso. apply (Hp p). reflexivity.
Qed.

(** An event that is no dictionary fails at the first extraction. *)
Lemma lambda_handler_event_not_dict
    (event : pyval) (context : lambda_context) (w : runtime) :
  let e := AttributeError
             (PStr ("'" ++ type_name event ++
                    "' object has no attribute 'get'")) in
  (forall d, event <> PDict d) ->
  lambda_handler event context w =
    (Raise e,
     {| sns_calls := sns_calls w;
        xray_calls :=
          xray_calls w ++
          [BeginSubsegment "handler"; EndSubsegment "handler" (Some e)] |}).
Proof.
  intros e Hd. subst e.
  unfold lambda_handler, capture, get, bind, xray, ret, raise.
  destruct event as [ | b | z | r | t | l | d ]; simpl;
    try (rewrite <- app_assoc; reflexivity).
  exfalso. apply (Hd d). reflexivity.
Qed.

(** [notify_booking] raises no [ValueError], and neither does the handler
    once it has called it. *)
Lemma handler_result_not_ValueError
    (payload booking_reference : pyval) (w : runtime) (arg : pyval) :
  handler_result (fst (notify_booking payload booking_reference w)) <>
  Raise (ValueError arg).
Proof.
  rewrite notify_booking_outcome. unfold notify_outcome, unhashable.
  cases; discriminate.
Qed.

(** The validation of the handler, on an event whose [payment] is a
    dictionary: [ValueError] is raised exactly when neither [customerId]
    nor [price] is truthy. *)
Lemma lambda_handler_validation
    (d p : dict) (context : lambda_context) (w : runtime) :
  dict_get "payment" d (PBool false) = PDict p ->
  (exists arg, fst (lambda_handler (PDict d) context w) = Raise (ValueError arg))
  <->
  truthy (dict_get "customerId" d (PBool false)) = false /\
  truthy (dict_get "price" p (PBool false)) = false.
Proof.
  intros Hp.
  assert (Hvalid :
            truthy (dict_get "customerId" d (PBool false))
            || truthy (dict_get "price" p (PBool false)) = true ->
            forall arg,
              fst (lambda_handler (PDict d) context w) <> Raise (ValueError arg)).
  { intros Hv arg.
    rewrite (lambda_handler_valid d p context w Hp Hv). simpl.
    apply handler_result_not_ValueError. }
  destruct (truthy (dict_get "customerId" d (PBool false))) eqn:Hc.
  - split; [ intros [arg H] | intros [? ?]; discriminate ].
    exfalso. exact (Hvalid eq_refl arg H).
  - destruct (truthy (dict_get "price" p (PBool false))) eqn:Hv.
    + split; [ intros [arg H] | intros [? ?]; discriminate ].
      exfalso. exact (Hvalid eq_refl arg H).
    + split; [ auto | intros _ ].
      rewrite (lambda_handler_invalid d p context w Hp Hc Hv). simpl. eauto.
Qed.

(** C1, on the code: an event without a [payment] key does not get a
    default [price]; the default [False] of the first [get] has no [get] of
    its own, the extraction raises [AttributeError], and nothing is
    published. *)
Theorem lambda_handler_payment_absent
    (d : dict) (context : lambda_context) (w : runtime) :
  lookup "payment" d = None ->
  lambda_handler (PDict d) context w =
    (Raise (AttributeError (PStr "'bool' object has no attribute 'get'")),
     {| sns_calls := sns_calls w;
        xray_calls :=
          xray_calls w ++
          [BeginSubsegment "handler";
           EndSubsegment "handler"
             (Some (AttributeError
                      (PStr "'bool' object has no attribute 'get'")))] |}).
Proof.
  intros Hp.
  assert (E : dict_get "payment" d (PBool false) = PBool false)
    by (unfold dict_get; rewrite Hp; reflexivity).
  rewrite lambda_handler_payment_not_dict; rewrite E.
  - reflexivity.
  - discriminate.
Qed.

(** C2, on the code: the empty event, in which [customerId] and [price]
    are both absent, raises [AttributeError] and no [ValueError]; the event
    that holds a truthy [customerId] alone raises [AttributeError] too and
    does not reach the publish call. *)
Theorem lambda_handler_validation_unreached
    (context : lambda_context) (w : runtime) :
  fst (lambda_handler (PDict []) context w) =
    Raise (AttributeError (PStr "'bool' object has no attribute 'get'")) /\
  (forall arg,
      fst (lambda_handler (PDict []) context w) <> Raise (ValueError arg)) /\
  truthy (PStr "cust-1") = true /\
  fst (lambda_handler (PDict [("customerId", PStr "cust-1")]) context w) =
    Raise (AttributeError (PStr "'bool' object has no attribute 'get'")) /\
  sns_calls
    (snd (lambda_handler (PDict [("customerId", PStr "cust-1")]) context w)) =
    sns_calls w.
Proof.
  repeat split; try reflexivity.
  intros arg. discriminate.
Qed.


(** C8, as amended: whenever the handler raises [ValueError], it is the
    invalid-input error of an event in which neither [customerId] nor
    [price] is truthy, raised before the publish call: no publish call is
    made, and the one thing the invocation leaves is the handler's own
    subsegment on the recorder, opened by the decorator and closed with
    the error, with nothing of [notify_booking] in it. *)
Theorem lambda_handler_invalid_input_no_publish
    (event : pyval) (context : lambda_context) (w : runtime) (arg : pyval) :
  fst (lambda_handler event context w) = Raise (ValueError arg) ->
  arg = PStr "Invalid customer and price" /\
  (exists d p,
      event = PDict d /\
      dict_get "payment" d (PBool false) = PDict p /\
      truthy (dict_get "customerId" d (PBool false)) = false /\
      truthy (dict_get "price" p (PBool false)) = false) /\
  sns_calls (snd (lambda_handler event context w)) = sns_calls w /\
  xray_calls (snd (lambda_handler event context w)) =
    (xray_calls w ++
     [BeginSubsegment "handler";
      EndSubsegment "handler" (Some (ValueError arg))])%list.
Proof.
  intros H.
  destruct event as [ | b | z | r | t | l | d ];
    try (rewrite lambda_handler_event_not_dict in H by discriminate;
         discriminate).
  destruct (dict_get "payment" d (PBool false)) as [ | b | z | r | t | l | p ] eqn:Hp;
    try (rewrite lambda_handler_payment_not_dict in H
           by (rewrite Hp; discriminate);
         discriminate).
  assert (Hv : exists a,
             fst (lambda_handler (PDict d) context w) = Raise (ValueError a))
    by eauto.
  apply (lambda_handler_validation d p context w Hp) in Hv.
  destruct Hv as [Hc Hv].
  rewrite (lambda_handler_invalid d p context w Hp Hc Hv) in *.
  simpl in *. injection H as <-.
  split; [ reflexivity | ].
  split; [ exists d, p; auto | auto ].
Qed.

(** C9: for an event that passes validation, when [notify_booking] raises
    a [BookingNotificationException] the handler raises a
    [BookingNotificationException] made from it, with the same message: it
    returns no value and issues no further publish call. *)
Theorem lambda_handler_reraises
    (d p : dict) (context : lambda_context) (w : runtime) (arg : exn_arg) :
  let customer_id := dict_get "customerId" d (PBool false) in
  let price := dict_get "price" p (PBool false) in
  let booking_reference := dict_get "bookingReference" d (PBool false) in
  let payload := PDict [("customerId", customer_id); ("price", price)] in
  let notified := notify_booking payload booking_reference (in_handler w) in
  dict_get "payment" d (PBool false) = PDict p ->
  truthy customer_id || truthy price = true ->
  fst notified = Raise (BookingNotificationException arg) ->
  exists e,
    fst (lambda_handler (PDict d) context w) = Raise e /\
    e = BookingNotificationException (Exc (BookingNotificationException arg)) /\
    class_name e = class_name (BookingNotificationException arg) /\
    notification_message isprintable e =
      notification_message isprintable (BookingNotificationException arg) /\
    sns_calls (snd (lambda_handler (PDict d) context w)) =
      sns_calls (snd notified).
Proof.
  intros customer_id price booking_reference payload notified Hp Hv Hn.
  rewrite (lambda_handler_valid d p context w Hp Hv). simpl.
  fold customer_id price booking_reference payload notified.
  rewrite Hn. simpl. eexists. repeat split.
Qed.

(** ** More on the runs of [notify_booking] and [lambda_handler] *)

(** What [notify_booking] records on the tracing recorder. *)
Lemma notify_booking_xray_calls (payload booking_reference : pyval) (w : runtime) :
  xray_calls (snd (notify_booking payload booking_reference w)) =
  (xray_calls w ++
   notify_trace booking_reference
     (sns_publish (sns_calls w) (notification payload booking_reference)))%list.
Proof.
  unfold notify_trace, unhashable. run.
  cases; repeat rewrite <- app_assoc; reflexivity.
Qed.

(** The three ways an invocation can go: the event passes extraction and
    validation, it passes extraction and fails validation, or extraction
    fails on a value that is no dictionary. *)
Lemma lambda_handler_cases
    (event : pyval) (context : lambda_context) (w : runtime) :
  (exists d p,
      event = PDict d /\
      dict_get "payment" d (PBool false) = PDict p /\
      truthy (dict_get "customerId" d (PBool false))
      || truthy (dict_get "price" p (PBool false)) = true)
  \/
  (exists d p,
      event = PDict d /\
      dict_get "payment" d (PBool false) = PDict p /\
      truthy (dict_get "customerId" d (PBool false)) = false /\
      truthy (dict_get "price" p (PBool false)) = false)
  \/
  (extractable event = false /\
   exists t,
     let e := AttributeError
                (PStr ("'" ++ t ++ "' object has no attribute 'get'")) in
     lambda_handler event context w =
       (Raise e,
        {| sns_calls := sns_calls w;
           xray_calls :=
             xray_calls w ++
             [BeginSubsegment "handler";
              EndSubsegment "handler" (Some e)] |})).
Proof.
  destruct event as [ | b | z | r | s | l | d ].
  1-6: right; right; split; [ reflexivity | ];
       match goal with
       | |- context [lambda_handler ?ev _ _] => exists (type_name ev)
       end;
       apply lambda_handler_event_not_dict; discriminate.
  destruct (dict_get "payment" d (PBool false)) as [ | b | z | r | s | l | p ] eqn:Hp.
  1-6: right; right; split; [ simpl; rewrite Hp; reflexivity | ];
       exists (type_name (dict_get "payment" d (PBool false)));
       apply lambda_handler_payment_not_dict; rewrite Hp; discriminate.
  destruct (truthy (dict_get "customerId" d (PBool false))) eqn:Hc.
  { left. exists d, p. rewrite Hc. repeat split; assumption. }
  destruct (truthy (dict_get "price" p (PBool false))) eqn:Hv.
  { left. exists d, p. rewrite Hc, Hv. repeat split; assumption. }
  right; left. exists d, p. repeat split; assumption.
Qed.

(** The publish call of an invocation that passes validation. *)
Lemma lambda_handler_valid_sns_calls
    (d p : dict) (context : lambda_context) (w : runtime) :
  let customer_id := dict_get "customerId" d (PBool false) in
  let price := dict_get "price" p (PBool false) in
  let booking_reference := dict_get "bookingReference" d (PBool false) in
  let payload := PDict [("customerId", customer_id); ("price", price)] in
  dict_get "payment" d (PBool false) = PDict p ->
  truthy customer_id || truthy price = true ->
  sns_calls (snd (lambda_handler (PDict d) context w)) =
    (sns_calls w ++ [notification payload booking_reference])%list.
Proof.
  intros customer_id price booking_reference payload Hp Hv.
  rewrite (lambda_handler_valid d p context w Hp Hv). simpl.
  rewrite notify_booking_sns_calls. reflexivity.
Qed.

(** The result of an invocation that passes validation, for each end of
    the publish call. *)
Lemma lambda_handler_valid_result
    (d p : dict) (context : lambda_context) (w : runtime) :
  let customer_id := dict_get "customerId" d (PBool false) in
  let price := dict_get "price" p (PBool false) in
  let booking_reference := dict_get "bookingReference" d (PBool false) in
  let payload := PDict [("customerId", customer_id); ("price", price)] in
  dict_get "payment" d (PBool false) = PDict p ->
  truthy customer_id || truthy price = true ->
  fst (lambda_handler (PDict d) context w) =
    handler_result
      (notify_outcome booking_reference
         (sns_publish (sns_calls w) (notification payload booking_reference))).
Proof.
  intros customer_id price booking_reference payload Hp Hv.
  rewrite (lambda_handler_valid d p context w Hp Hv). simpl.
  rewrite notify_booking_outcome. reflexivity.
Qed.

(** A list is not itself with one more item. *)
Lemma app_one_neq {A} (l : list A) (x : A) : l <> (l ++ [x])%list.
Proof.
  intros H. rewrite <- (app_nil_r l) in H at 1.
  apply app_inv_head in H. discriminate.
Qed.

(** X1: an invocation of the handler issues at most one publish call,
    whatever the event; the call is added after the earlier ones, which
    are kept, and it goes to the topic of the configuration. *)
Theorem lambda_handler_publishes_at_most_once
    (event : pyval) (context : lambda_context) (w : runtime) :
  exists new,
    sns_calls (snd (lambda_handler event context w)) =
      (sns_calls w ++ new)%list /\
    (length new <= 1)%nat /\
    Forall (fun request => TopicArn request = booking_sns_topic) new.
Proof.
  destruct (lambda_handler_cases event context w)
    as [(d & p & -> & Hp & Hv) | [(d & p & -> & Hp & Hc & Hv) | (_ & t & H)]].
  - eexists. split; [ apply (lambda_handler_valid_sns_calls d p context w Hp Hv) | ].
    split; [ apply le_n | ]. repeat constructor.
  - exists []. rewrite (lambda_handler_invalid d p context w Hp Hc Hv). simpl.
    rewrite app_nil_r. repeat constructor.
  - exists []. rewrite H. simpl. rewrite app_nil_r. repeat constructor.
Qed.

(** X2: on an event whose [payment] is a dictionary, the handler raises
    the invalid-input error exactly when neither [customerId] nor [price]
    is truthy, and exactly then it issues no publish call: one truthy field
    of the two is enough to publish. *)
Theorem lambda_handler_validation_decides
    (d p : dict) (context : lambda_context) (w : runtime) :
  let customer_id := dict_get "customerId" d (PBool false) in
  let price := dict_get "price" p (PBool false) in
  dict_get "payment" d (PBool false) = PDict p ->
  (fst (lambda_handler (PDict d) context w) =
     Raise (ValueError (PStr "Invalid customer and price"))
   <-> truthy customer_id = false /\ truthy price = false) /\
  (sns_calls (snd (lambda_handler (PDict d) context w)) = sns_calls w
   <-> truthy customer_id = false /\ truthy price = false).
Proof.
  intros customer_id price Hp.
  destruct (truthy customer_id || truthy price) eqn:Hv.
  - assert (Hn : ~ (truthy customer_id = false /\ truthy price = false))
      by (intros [Hc Hq]; rewrite Hc, Hq in Hv; discriminate).
    split; (split; [ intros H; exfalso | intros H; exfalso; exact (Hn H) ]).
    + rewrite (lambda_handler_valid d p context w Hp Hv) in H. simpl in H.
      exact (handler_result_not_ValueError _ _ _ _ H).
    + rewrite (lambda_handler_valid_sns_calls d p context w Hp Hv) in H.
      symmetry in H. exact (app_one_neq _ _ H).
  - apply orb_false_iff in Hv. destruct Hv as [Hc Hq].
    rewrite (lambda_handler_invalid d p context w Hp Hc Hq). simpl.
    split; split; auto.
Qed.

(** X3: for an event that passes validation, the one publish call carries
    as its message the serialized dictionary of [customerId] and [price],
    in that order and without the booking reference, and the subject and
    status of the reference, whatever the service answers. *)
Theorem lambda_handler_request
    (d p : dict) (context : lambda_context) (w : runtime) :
  let customer_id := dict_get "customerId" d (PBool false) in
  let price := dict_get "price" p (PBool false) in
  let booking_reference := dict_get "bookingReference" d (PBool false) in
  dict_get "payment" d (PBool false) = PDict p ->
  truthy customer_id || truthy price = true ->
  sns_calls (snd (lambda_handler (PDict d) context w)) =
    (sns_calls w ++
     [{| TopicArn := booking_sns_topic;
         Message :=
           json_dumps (PDict [("customerId", customer_id); ("price", price)]);
         Subject := subject booking_reference;
         MessageAttributes :=
           [("Booking.Status",
             {| DataType := "String";
                StringValue := booking_status booking_reference |})] |}])%list.
Proof.
  intros customer_id price booking_reference Hp Hv.
  apply (lambda_handler_valid_sns_calls d p context w Hp Hv).
Qed.

(** X4: the handler raises [AttributeError] exactly on an event that is
    no dictionary or whose [payment], or the [False] that stands for a
    missing one, is no dictionary; it then publishes nothing, whatever
    [customerId] holds. *)
Theorem lambda_handler_extraction_error
    (event : pyval) (context : lambda_context) (w : runtime) :
  ((exists arg, fst (lambda_handler event context w) = Raise (AttributeError arg))
   <-> extractable event = false) /\
  (extractable event = false ->
   sns_calls (snd (lambda_handler event context w)) = sns_calls w).
Proof.
  destruct (lambda_handler_cases event context w)
    as [(d & p & -> & Hp & Hv) | [(d & p & -> & Hp & Hc & Hv) | (Hx & t & H)]].
  - assert (Hx : extractable (PDict d) = true) by (simpl; rewrite Hp; reflexivity).
    rewrite Hx. split; [ split | discriminate ]; [ | discriminate ].
    intros [arg H]. exfalso.
    rewrite (lambda_handler_valid_result d p context w Hp Hv) in H.
    revert H. outcomes; discriminate.
  - assert (Hx : extractable (PDict d) = true) by (simpl; rewrite Hp; reflexivity).
    rewrite Hx. split; [ split | discriminate ]; [ | discriminate ].
    intros [arg H]. exfalso.
    rewrite (lambda_handler_invalid d p context w Hp Hc Hv) in H. discriminate.
  - rewrite H. simpl. split; [ split | ]; eauto.
Qed.

(** X5: when the handler returns a value, the event has passed extraction
    and validation, one publish call was issued, and the value is the
    [MessageId] of the response the service gave to that call. *)
Theorem lambda_handler_return_sound
    (event : pyval) (context : lambda_context) (w : runtime) (v : pyval) :
  fst (lambda_handler event context w) = Return v ->
  exists d p r,
    let customer_id := dict_get "customerId" d (PBool false) in
    let price := dict_get "price" p (PBool false) in
    let booking_reference := dict_get "bookingReference" d (PBool false) in
    let request :=
      notification (PDict [("customerId", customer_id); ("price", price)])
        booking_reference in
    event = PDict d /\
    dict_get "payment" d (PBool false) = PDict p /\
    truthy customer_id || truthy price = true /\
    sns_publish (sns_calls w) request = PublishResponse r /\
    lookup "MessageId" r = Some v /\
    sns_calls (snd (lambda_handler event context w)) =
      (sns_calls w ++ [request])%list.
Proof.
  intros H.
  destruct (lambda_handler_cases event context w)
    as [(d & p & -> & Hp & Hv) | [(d & p & -> & Hp & Hc & Hv) | (_ & t & E)]].
  - rewrite (lambda_handler_valid_result d p context w Hp Hv) in H.
    revert H. outcomes; try discriminate.
    intros [= ->]. exists d, p. eexists. simpl.
    repeat split; eauto.
    apply (lambda_handler_valid_sns_calls d p context w Hp Hv).
  - rewrite (lambda_handler_invalid d p context w Hp Hc Hv) in H. discriminate.
  - rewrite E in H. discriminate.
Qed.

(** X6: when the handler raises a [BookingNotificationException], the
    event has passed validation, the service has rejected the publish call
    with a [ClientError], and the exception holds, as its argument, the
    exception of [notify_booking] that holds the service's message. *)
Theorem lambda_handler_notification_exception
    (event : pyval) (context : lambda_context) (w : runtime) (arg : exn_arg) :
  fst (lambda_handler event context w) =
    Raise (BookingNotificationException arg) ->
  exists d p response message,
    let customer_id := dict_get "customerId" d (PBool false) in
    let price := dict_get "price" p (PBool false) in
    let booking_reference := dict_get "bookingReference" d (PBool false) in
    event = PDict d /\
    dict_get "payment" d (PBool false) = PDict p /\
    truthy customer_id || truthy price = true /\
    sns_publish (sns_calls w)
      (notification (PDict [("customerId", customer_id); ("price", price)])
         booking_reference) = PublishClientError response /\
    error_message response = Some message /\
    arg = Exc (BookingNotificationException (Val message)).
Proof.
  intros H.
  destruct (lambda_handler_cases event context w)
    as [(d & p & -> & Hp & Hv) | [(d & p & -> & Hp & Hc & Hv) | (_ & t & E)]].
  - rewrite (lambda_handler_valid_result d p context w Hp Hv) in H.
    exists d, p. simpl.
    unfold notify_outcome, unhashable in H.
    destruct (sns_publish (sns_calls w) _) as [r | response | failure] eqn:Hpub.
    + exfalso. revert H. cases; discriminate.
    + exists response. unfold error_message.
      destruct (lookup "Error" response) as [[ | | | | | | error] | ];
        try discriminate.
      destruct (lookup "Message" error) as [message | ]; [ | discriminate ].
      exists message. injection H as <-. repeat split; assumption.
    + discriminate.
  - rewrite (lambda_handler_invalid d p context w Hp Hc Hv) in H. discriminate.
  - rewrite E in H. discriminate.
Qed.

(** X7: botocore's [ClientError] leaves neither [notify_booking] nor the
    handler: whatever the service answers, neither raises it. *)
Theorem ClientError_is_not_raised :
  (forall payload booking_reference w response,
      fst (notify_booking payload booking_reference w) <>
      Raise (ClientError response)) /\
  (forall event (context : lambda_context) w response,
      fst (lambda_handler event context w) <> Raise (ClientError response)).
Proof.
  split.
  - intros payload booking_reference w response.
    rewrite notify_booking_outcome. outcomes; discriminate.
  - intros event context w response H.
    destruct (lambda_handler_cases event context w)
      as [(d & p & -> & Hp & Hv) | [(d & p & -> & Hp & Hc & Hv) | (_ & t & E)]].
    + rewrite (lambda_handler_valid_result d p context w Hp Hv) in H.
      revert H. outcomes; discriminate.
    + rewrite (lambda_handler_invalid d p context w Hp Hc Hv) in H.
      discriminate.
    + rewrite E in H. discriminate.
Qed.

(** X8: an answer of the service outside the shape of its API, a response
    without [MessageId] or an error response without [Error] and its
    [Message], is not turned into a [BookingNotificationException]:
    [notify_booking] raises the [KeyError] or [TypeError] of the failed
    subscript, after the publish call has been issued. *)
Theorem notify_booking_unexpected_answer
    (payload booking_reference : pyval) (w : runtime) :
  well_formed
    (sns_publish (sns_calls w) (notification payload booking_reference)) = false ->
  exists e,
    fst (notify_booking payload booking_reference w) = Raise e /\
    (class_name e = "KeyError" \/ class_name e = "TypeError") /\
    sns_calls (snd (notify_booking payload booking_reference w)) =
      (sns_calls w ++ [notification payload booking_reference])%list.
Proof.
  intros Hwf.
  rewrite notify_booking_outcome, notify_booking_sns_calls.
  unfold well_formed, error_message in Hwf. unfold notify_outcome.
  destruct (sns_publish (sns_calls w) (notification payload booking_reference))
    as [r | response | failure].
  - destruct (lookup "MessageId" r); [ discriminate | ].
    eexists. repeat split. auto.
  - destruct (lookup "Error" response) as [[ | | | | | | error] | ];
      try (eexists; repeat split; simpl; auto; fail).
    destruct (lookup "Message" error); [ discriminate | ].
    eexists. repeat split. auto.
  - discriminate.
Qed.

(** X9: whatever the event, the calls an invocation makes on the recorder
    come after the earlier ones, open the handler's subsegment first and
    close it last, with the exception the handler raises or with none when
    it returns, and what is recorded in between nests. *)
Theorem lambda_handler_trace
    (event : pyval) (context : lambda_context) (w : runtime) :
  exists inner,
    xray_calls (snd (lambda_handler event context w)) =
      (xray_calls w ++
       BeginSubsegment "handler" ::
       inner ++
       [EndSubsegment "handler"
          (raised (fst (lambda_handler event context w)))])%list /\
    nested [] inner = true.
Proof.
  destruct (lambda_handler_cases event context w)
    as [(d & p & -> & Hp & Hv) | [(d & p & -> & Hp & Hc & Hv) | (_ & t & E)]].
  - rewrite (lambda_handler_valid d p context w Hp Hv). simpl.
    rewrite notify_booking_xray_calls. simpl.
    match goal with
    | |- context [notify_trace ?r ?o] => exists (notify_trace r o)
    end.
    split.
    + rewrite <- !app_assoc. reflexivity.
    + unfold notify_trace, unhashable. cases; reflexivity.
  - exists []. rewrite (lambda_handler_invalid d p context w Hp Hc Hv).
    split; reflexivity.
  - exists []. rewrite E. split; reflexivity.
Qed.

(** X10: when the publish call succeeds and the booking reference has a
    hash, the subsegment of [notify_booking] is annotated with the booking
    reference and with the delivery identifier, holds the whole response
    as metadata under the booking reference, and is closed without an
    exception. *)
Theorem notify_booking_trace_of_success
    (payload booking_reference : pyval) (w : runtime)
    (r : dict) (message_id : pyval) :
  sns_publish (sns_calls w) (notification payload booking_reference) =
    PublishResponse r ->
  lookup "MessageId" r = Some message_id ->
  hashable booking_reference = true ->
  xray_calls (snd (notify_booking payload booking_reference w)) =
    (xray_calls w ++
     [BeginSubsegment "notify_booking";
      PutAnnotation "notify_booking" "BookingReference" booking_reference;
      PutAnnotation "notify_booking" "BookingNotification" message_id;
      PutMetadata "notify_booking" booking_reference (PDict r) "notification";
      EndSubsegment "notify_booking" None])%list.
Proof.
  intros Hpub Hid Hh.
  rewrite notify_booking_xray_calls. unfold notify_trace.
  rewrite Hpub, Hid, Hh. reflexivity.
Qed.

(** X11: when the service rejects the publish call, the subsegment of
    [notify_booking] holds the booking reference alone, and is closed with
    the service's [ClientError], not with the exception [notify_booking]
    raises in its place; no delivery is recorded. *)
Theorem notify_booking_trace_of_provider_error
    (payload booking_reference : pyval) (w : runtime) (response : dict) :
  sns_publish (sns_calls w) (notification payload booking_reference) =
    PublishClientError response ->
  xray_calls (snd (notify_booking payload booking_reference w)) =
    (xray_calls w ++
     [BeginSubsegment "notify_booking";
      PutAnnotation "notify_booking" "BookingReference" booking_reference;
      EndSubsegment "notify_booking" (Some (ClientError response))])%list.
Proof.
  intros Hpub.
  rewrite notify_booking_xray_calls. unfold notify_trace.
  rewrite Hpub. reflexivity.
Qed.

(** X12: the handler keeps nothing between invocations and removes no
    duplicate: a second invocation on the same event, whose booking
    reference has a hash, issues the same request again, and each
    invocation returns the identifier the service gives to its own
    call. *)
Theorem lambda_handler_twice
    (d p : dict) (context : lambda_context) (w : runtime)
    (r1 r2 : dict) (id1 id2 : pyval) :
  let customer_id := dict_get "customerId" d (PBool false) in
  let price := dict_get "price" p (PBool false) in
  let booking_reference := dict_get "bookingReference" d (PBool false) in
  let request :=
    notification (PDict [("customerId", customer_id); ("price", price)])
      booking_reference in
  let first := lambda_handler (PDict d) context w in
  let second := lambda_handler (PDict d) context (snd first) in
  dict_get "payment" d (PBool false) = PDict p ->
  truthy customer_id || truthy price = true ->
  sns_publish (sns_calls w) request = PublishResponse r1 ->
  lookup "MessageId" r1 = Some id1 ->
  sns_publish (sns_calls w ++ [request]) request = PublishResponse r2 ->
  lookup "MessageId" r2 = Some id2 ->
  hashable booking_reference = true ->
  fst first = Return id1 /\
  fst second = Return id2 /\
  sns_calls (snd second) = (sns_calls w ++ [request; request])%list.
Proof.
  intros customer_id price booking_reference request first second
    Hp Hv Hpub1 Hid1 Hpub2 Hid2 Hh.
  assert (Hcalls : sns_calls (snd first) = (sns_calls w ++ [request])%list)
    by apply (lambda_handler_valid_sns_calls d p context w Hp Hv).
  split; [ | split ].
  - unfold first. rewrite (lambda_handler_valid_result d p context w Hp Hv).
    fold customer_id price booking_reference request.
    unfold notify_outcome. rewrite Hpub1, Hid1, Hh. reflexivity.
  - unfold second.
    rewrite (lambda_handler_valid_result d p context (snd first) Hp Hv).
    fold customer_id price booking_reference request.
    unfold notify_outcome. rewrite Hcalls, Hpub2, Hid2, Hh. reflexivity.
  - unfold second.
    rewrite (lambda_handler_valid_sns_calls d p context (snd first) Hp Hv).
    fold customer_id price booking_reference request.
    rewrite Hcalls, <- app_assoc. reflexivity.
Qed.

(** A text begins with itself. *)
Lemma prefix_app (a b : string) : String.prefix a (a ++ b) = true.
Proof.
  induction a as [ | c a IH ]; simpl.
  - destruct b; reflexivity.
  - destruct (Ascii.ascii_dec c c) as [ _ | N ]; [ exact IH | contradiction ].
Qed.

(** X13: the subject and the status attribute of a notification agree:
    the subject begins with "Booking confirmation for " exactly when the
    status is "confirmed", and with "Unable to process booking for "
    exactly when it is "cancelled". *)
Theorem subject_agrees_with_status (booking_reference : pyval) :
  (String.prefix "Booking confirmation for " (subject booking_reference) = true
   <-> booking_status booking_reference = "confirmed") /\
  (String.prefix "Unable to process booking for " (subject booking_reference)
     = true
   <-> booking_status booking_reference = "cancelled").
Proof.
  unfold subject, booking_status, successful_subject, unsuccessful_subject.
  destruct (truthy booking_reference).
  - split; (split; intros H); try reflexivity; try discriminate.
    apply (prefix_app "Booking confirmation for ").
  - split; (split; intros H); try reflexivity; try discriminate.
    apply (prefix_app "Unable to process booking for ").
Qed.

(** X14: an event without a [bookingReference] is not refused: when it
    passes validation and the publish call succeeds, the handler announces
    a cancellation, whose subject ends in the rendering of the default
    [False], and returns the delivery identifier. *)
Theorem lambda_handler_missing_reference
    (d p : dict) (context : lambda_context) (w : runtime)
    (r : dict) (message_id : pyval) :
  let customer_id := dict_get "customerId" d (PBool false) in
  let price := dict_get "price" p (PBool false) in
  let request :=
    {| TopicArn := booking_sns_topic;
       Message :=
         json_dumps (PDict [("customerId", customer_id); ("price", price)]);
       Subject := "Unable to process booking for False";
       MessageAttributes :=
         [("Booking.Status",
           {| DataType := "String"; StringValue := "cancelled" |})] |} in
  lookup "bookingReference" d = None ->
  dict_get "payment" d (PBool false) = PDict p ->
  truthy customer_id || truthy price = true ->
  sns_publish (sns_calls w) request = PublishResponse r ->
  lookup "MessageId" r = Some message_id ->
  fst (lambda_handler (PDict d) context w) = Return message_id /\
  sns_calls (snd (lambda_handler (PDict d) context w)) =
    (sns_calls w ++ [request])%list.
Proof.
  intros customer_id price request Href Hp Hv Hpub Hid.
  assert (E : notification
                (PDict [("customerId", customer_id); ("price", price)])
                (dict_get "bookingReference" d (PBool false)) = request)
    by (unfold dict_get; rewrite Href; reflexivity).
  assert (Eref : dict_get "bookingReference" d (PBool false) = PBool false)
    by (unfold dict_get; rewrite Href; reflexivity).
  split.
  - rewrite (lambda_handler_valid_result d p context w Hp Hv).
    fold customer_id price. unfold notify_outcome.
    rewrite E, Hpub, Hid, Eref. reflexivity.
  - rewrite (lambda_handler_valid_sns_calls d p context w Hp Hv).
    fold customer_id price. rewrite E. reflexivity.
Qed.


(** X16: with no topic in the configuration and a client that refuses a
    request without a topic, as boto3 does when it validates the
    parameters, an event that passes validation makes the handler raise
    botocore's [ParamValidationError]: it is no [ClientError], so it is
    not turned into a [BookingNotificationException], and nothing is
    returned. *)
Theorem lambda_handler_unset_topic
    (d p : dict) (context : lambda_context) (w : runtime) :
  booking_sns_topic = None ->
  (forall history request,
      TopicArn request = None ->
      exists report,
        sns_publish history request =
          PublishFailure (ParamValidationError report)) ->
  dict_get "payment" d (PBool false) = PDict p ->
  truthy (dict_get "customerId" d (PBool false))
  || truthy (dict_get "price" p (PBool false)) = true ->
  exists report,
    fst (lambda_handler (PDict d) context w) =
      Raise (BotoCoreError (ParamValidationError report)).
Proof.
  intros Htopic Hvalidates Hp Hv.
  rewrite (lambda_handler_valid_result d p context w Hp Hv).
  match goal with
  | |- context [sns_publish ?h ?request] =>
      destruct (Hvalidates h request) as [report Hpub];
        [ simpl; exact Htopic | rewrite Hpub ]
  end.
  exists report. reflexivity.
Qed.

End Notify.

(** ** The properties on concrete events *)

(** C1 on the event that holds a customer and no [payment]. *)
Lemma lambda_handler_payment_absent_witness :
  lookup "payment" [("customerId", PStr "cust-1")] = None /\
  fst (lambda_handler latin1 topic Json.dumps (publish_succeeds "msg-1") unit
         (PDict [("customerId", PStr "cust-1")]) tt idle) =
    Raise (AttributeError (PStr "'bool' object has no attribute 'get'")).
Proof.
  split; [ reflexivity | ].
  rewrite (lambda_handler_payment_absent latin1 topic Json.dumps
             (publish_succeeds "msg-1") unit
             [("customerId", PStr "cust-1")] tt idle eq_refl).
  reflexivity.
Defined.



(** The claim C4 fails on a booking reference that is a list, and on a
    configuration without a topic: [notify_booking] raises a [TypeError]
    after a publish call that succeeded, and botocore's
    [ParamValidationError], and neither is a
    [BookingNotificationException]. *)
Lemma notify_booking_raises_other_errors :
  fst (notify_booking latin1 topic Json.dumps
         (publish_succeeds "abc-123")
         booking_payload (PList [PStr "BK-9"]) idle) =
    Raise (TypeError (PStr "unhashable type: 'list'")) /\
  fst (notify_booking latin1 None Json.dumps
         (publish_validating "abc-123")
         booking_payload (PStr "BK-9") idle) =
    Raise (BotoCoreError
             (ParamValidationError "Invalid type for parameter TopicArn")).
Proof.
  split; reflexivity.
Qed.

(** C4, as amended, on the provider error "Topic not found". *)
Lemma notify_booking_error_path_witness :
  fst (notify_booking latin1 topic Json.dumps
         (publish_fails "NotFound" "Topic not found")
         booking_payload (PStr "BK-9") idle) =
    Raise (BookingNotificationException (Val (PStr "Topic not found"))).
Proof.
  exact (proj1 (notify_booking_error_path latin1 topic Json.dumps
                  (publish_fails "NotFound" "Topic not found")
                  booking_payload (PStr "BK-9") idle)
           _ (PStr "Topic not found") eq_refl eq_refl).
Defined.





(** C7 on the reference "BK-9". *)
Lemma notify_booking_confirmed_witness :
  truthy (PStr "BK-9") = true /\
  subject latin1 (PStr "BK-9") = "Booking confirmation for BK-9" /\
  booking_status (PStr "BK-9") = "confirmed" /\
  sns_calls (snd (notify_booking latin1 topic Json.dumps
      (publish_succeeds "abc-123")
                    booking_payload (PStr "BK-9") idle)) =
    [{| TopicArn := topic;
        Message := Json.dumps booking_payload;
        Subject := "Booking confirmation for BK-9";
        MessageAttributes :=
          [("Booking.Status",
            {| DataType := "String"; StringValue := "confirmed" |})] |}].
Proof.
  split; [ reflexivity | ].
  exact (notify_booking_confirmed latin1 topic Json.dumps
           (publish_succeeds "abc-123") booking_payload (PStr "BK-9") idle
           eq_refl).
Defined.

(** The claim C8 fails on the event whose fields are all [None]: the
    handler raises the invalid-input error, and the runtime it leaves is
    not the one it found, for the recorder holds the handler's
    subsegment. *)
Lemma lambda_handler_invalid_input_leaves_trace :
  let run :=
    lambda_handler latin1 topic Json.dumps
      (publish_succeeds "msg-1") unit empty_booking_event tt idle in
  fst run = Raise (ValueError (PStr "Invalid customer and price")) /\
  snd run <> idle /\
  xray_calls (snd run) =
    [BeginSubsegment "handler";
     EndSubsegment "handler"
       (Some (ValueError (PStr "Invalid customer and price")))].
Proof.
  repeat split. discriminate.
Qed.

(** C8, as amended, on the event whose fields are all [None]. *)
Lemma lambda_handler_invalid_input_no_publish_witness :
  fst (lambda_handler latin1 topic Json.dumps (publish_succeeds "msg-1") unit
         empty_booking_event tt idle) =
    Raise (ValueError (PStr "Invalid customer and price")) /\
  sns_calls (snd (lambda_handler latin1 topic Json.dumps
      (publish_succeeds "msg-1")
                    unit empty_booking_event tt idle)) = [].
Proof.
  split; [ reflexivity | ].
  destruct (lambda_handler_invalid_input_no_publish latin1 topic Json.dumps
              (publish_succeeds "msg-1") unit empty_booking_event tt idle
              (PStr "Invalid customer and price") eq_refl)
    as (_ & _ & Hcalls & _).
  exact Hcalls.
Defined.

(** C9 on the provider error "Topic not found". *)
Lemma lambda_handler_reraises_witness :
  fst (notify_booking latin1 topic Json.dumps
         (publish_fails "NotFound" "Topic not found")
         booking_payload (PStr "BK-9") (in_handler idle)) =
    Raise (BookingNotificationException (Val (PStr "Topic not found"))) /\
  exists e,
    fst (lambda_handler latin1 topic Json.dumps
           (publish_fails "NotFound" "Topic not found") unit
           booking_event tt idle) = Raise e /\
    class_name e = "BookingNotificationException" /\
    notification_message latin1 e = Some "Topic not found".
Proof.
  split; [ reflexivity | ].
  destruct (lambda_handler_reraises latin1 topic Json.dumps
              (publish_fails "NotFound" "Topic not found") unit
              [("customerId", PStr "cust-1");
               ("payment", PDict [("price", PStr "100")]);
               ("bookingReference", PStr "BK-9")]
              [("price", PStr "100")] tt idle (Val (PStr "Topic not found"))
              eq_refl eq_refl eq_refl)
    as (e & Hraise & _ & Hclass & Hmessage & _).
  exists e. exact (conj Hraise (conj Hclass Hmessage)).
Defined.

(** ** The further properties on concrete events *)

(** X2 on the event that holds a customer and an empty [payment]. *)
Lemma lambda_handler_validation_decides_witness :
  let event :=
    PDict [("customerId", PStr "cust-1"); ("payment", PDict [])] in
  let run :=
    lambda_handler latin1 topic Json.dumps (publish_succeeds "msg-1") unit
      event tt idle in
  (fst run = Raise (ValueError (PStr "Invalid customer and price"))
   <-> truthy (PStr "cust-1") = false /\ truthy (PBool false) = false) /\
  (sns_calls (snd run) = []
   <-> truthy (PStr "cust-1") = false /\ truthy (PBool false) = false).
Proof.
  exact (lambda_handler_validation_decides latin1 topic Json.dumps
           (publish_succeeds "msg-1") unit
           [("customerId", PStr "cust-1"); ("payment", PDict [])] []
           tt idle eq_refl).
Defined.

(** X3 on the event that holds a customer and an empty [payment]: the
    message holds the default [False] as the price. *)
Lemma lambda_handler_request_witness :
  sns_calls
    (snd (lambda_handler latin1 topic Json.dumps (publish_succeeds "msg-1") unit
            (PDict [("customerId", PStr "cust-1"); ("payment", PDict [])])
            tt idle)) =
    [{| TopicArn := topic;
        Message :=
          Json.dumps
            (PDict [("customerId", PStr "cust-1"); ("price", PBool false)]);
        Subject := "Unable to process booking for False";
        MessageAttributes :=
          [("Booking.Status",
            {| DataType := "String"; StringValue := "cancelled" |})] |}].
Proof.
  exact (lambda_handler_request latin1 topic Json.dumps
           (publish_succeeds "msg-1") unit
           [("customerId", PStr "cust-1"); ("payment", PDict [])] []
           tt idle eq_refl eq_refl).
Defined.

(** X4 on the event whose [payment] is [None]. *)
Lemma lambda_handler_extraction_error_witness :
  extractable
    (PDict [("customerId", PStr "cust-1"); ("payment", PNone)]) = false /\
  sns_calls
    (snd (lambda_handler latin1 topic Json.dumps (publish_succeeds "msg-1") unit
            (PDict [("customerId", PStr "cust-1"); ("payment", PNone)])
            tt idle)) = [].
Proof.
  split; [ reflexivity | ].
  exact (proj2 (lambda_handler_extraction_error latin1 topic Json.dumps
                  (publish_succeeds "msg-1") unit
                  (PDict [("customerId", PStr "cust-1"); ("payment", PNone)])
                  tt idle) eq_refl).
Defined.

(** X5 on the complete event, with a publish call that succeeds. *)
Lemma lambda_handler_return_sound_witness :
  exists d p r,
    booking_event = PDict d /\
    dict_get "payment" d (PBool false) = PDict p /\
    truthy (dict_get "customerId" d (PBool false))
    || truthy (dict_get "price" p (PBool false)) = true /\
    publish_succeeds "msg-1" []
      (notification latin1 topic Json.dumps
         (PDict [("customerId", dict_get "customerId" d (PBool false));
                 ("price", dict_get "price" p (PBool false))])
         (dict_get "bookingReference" d (PBool false))) = PublishResponse r /\
    lookup "MessageId" r = Some (PStr "msg-1") /\
    sns_calls
      (snd (lambda_handler latin1 topic Json.dumps
          (publish_succeeds "msg-1") unit
              booking_event tt idle)) =
      [notification latin1 topic Json.dumps
         (PDict [("customerId", dict_get "customerId" d (PBool false));
                 ("price", dict_get "price" p (PBool false))])
         (dict_get "bookingReference" d (PBool false))].
Proof.
  exact (lambda_handler_return_sound latin1 topic Json.dumps
           (publish_succeeds "msg-1") unit booking_event tt idle
           (PStr "msg-1") eq_refl).
Defined.

(** X6 on the complete event, with a publish call that is rejected. *)
Lemma lambda_handler_notification_exception_witness :
  exists d p response message,
    booking_event = PDict d /\
    dict_get "payment" d (PBool false) = PDict p /\
    truthy (dict_get "customerId" d (PBool false))
    || truthy (dict_get "price" p (PBool false)) = true /\
    publish_fails "NotFound" "Topic not found" []
      (notification latin1 topic Json.dumps
         (PDict [("customerId", dict_get "customerId" d (PBool false));
                 ("price", dict_get "price" p (PBool false))])
         (dict_get "bookingReference" d (PBool false))) =
      PublishClientError response /\
    error_message response = Some message /\
    Exc (BookingNotificationException (Val (PStr "Topic not found"))) =
      Exc (BookingNotificationException (Val message)).
Proof.
  exact (lambda_handler_notification_exception latin1 topic Json.dumps
           (publish_fails "NotFound" "Topic not found") unit
           booking_event tt idle
           (Exc (BookingNotificationException (Val (PStr "Topic not found"))))
           eq_refl).
Defined.

(** X8 on a response that holds no [MessageId]. *)
Lemma notify_booking_unexpected_answer_witness :
  exists e,
    fst (notify_booking latin1 topic Json.dumps publish_without_id
           booking_payload (PStr "BK-9") idle) = Raise e /\
    (class_name e = "KeyError" \/ class_name e = "TypeError") /\
    sns_calls (snd (notify_booking latin1 topic Json.dumps publish_without_id
                      booking_payload (PStr "BK-9") idle)) =
      [notification latin1 topic Json.dumps booking_payload (PStr "BK-9")].
Proof.
  exact (notify_booking_unexpected_answer latin1 topic Json.dumps
      publish_without_id
           booking_payload (PStr "BK-9") idle eq_refl).
Defined.

(** X10 on the delivery identifier "abc-123". *)
Lemma notify_booking_trace_of_success_witness :
  xray_calls (snd (notify_booking latin1 topic Json.dumps
      (publish_succeeds "abc-123")
                     booking_payload (PStr "BK-9") idle)) =
    [BeginSubsegment "notify_booking";
     PutAnnotation "notify_booking" "BookingReference" (PStr "BK-9");
     PutAnnotation "notify_booking" "BookingNotification" (PStr "abc-123");
     PutMetadata "notify_booking" (PStr "BK-9")
       (PDict [("MessageId", PStr "abc-123")]) "notification";
     EndSubsegment "notify_booking" None].
Proof.
  exact (notify_booking_trace_of_success latin1 topic Json.dumps
           (publish_succeeds "abc-123") booking_payload (PStr "BK-9") idle
           [("MessageId", PStr "abc-123")] (PStr "abc-123")
           eq_refl eq_refl eq_refl).
Defined.

(** X11 on the provider error "Topic not found". *)
Lemma notify_booking_trace_of_provider_error_witness :
  xray_calls (snd (notify_booking latin1 topic Json.dumps
                     (publish_fails "NotFound" "Topic not found")
                     booking_payload (PStr "BK-9") idle)) =
    [BeginSubsegment "notify_booking";
     PutAnnotation "notify_booking" "BookingReference" (PStr "BK-9");
     EndSubsegment "notify_booking"
       (Some (ClientError
                [("Error", PDict [("Message", PStr "Topic not found");
                                  ("Code", PStr "NotFound")])]))].
Proof.
  exact (notify_booking_trace_of_provider_error latin1 topic Json.dumps
           (publish_fails "NotFound" "Topic not found")
           booking_payload (PStr "BK-9") idle _ eq_refl).
Defined.

(** X12 with a service that numbers its messages: two invocations on the
    complete event return "0" and "1" and leave two equal requests. *)
Lemma lambda_handler_twice_witness :
  let first :=
    lambda_handler latin1 topic Json.dumps publish_numbering unit
      booking_event tt idle in
  let second :=
    lambda_handler latin1 topic Json.dumps publish_numbering unit
      booking_event tt (snd first) in
  fst first = Return (PStr "0") /\
  fst second = Return (PStr "1") /\
  sns_calls (snd second) =
    [notification latin1 topic Json.dumps booking_payload (PStr "BK-9");
     notification latin1 topic Json.dumps booking_payload (PStr "BK-9")].
Proof.
  exact (lambda_handler_twice latin1 topic Json.dumps publish_numbering unit
           [("customerId", PStr "cust-1");
            ("payment", PDict [("price", PStr "100")]);
            ("bookingReference", PStr "BK-9")]
           [("price", PStr "100")] tt idle
           [("MessageId", PStr "0")] [("MessageId", PStr "1")]
           (PStr "0") (PStr "1")
           eq_refl eq_refl eq_refl eq_refl eq_refl eq_refl eq_refl).
Defined.

(** X14 on the event of a customer and a price, without a reference. *)
Lemma lambda_handler_missing_reference_witness :
  let event :=
    PDict [("customerId", PStr "cust-1");
           ("payment", PDict [("price", PStr "100")])] in
  let run :=
    lambda_handler latin1 topic Json.dumps (publish_succeeds "msg-1") unit
      event tt idle in
  fst run = Return (PStr "msg-1") /\
  sns_calls (snd run) =
    [{| TopicArn := topic;
        Message := Json.dumps booking_payload;
        Subject := "Unable to process booking for False";
        MessageAttributes :=
          [("Booking.Status",
            {| DataType := "String"; StringValue := "cancelled" |})] |}].
Proof.
  exact (lambda_handler_missing_reference latin1 topic Json.dumps
           (publish_succeeds "msg-1") unit
           [("customerId", PStr "cust-1");
            ("payment", PDict [("price", PStr "100")])]
           [("price", PStr "100")] tt idle
           [("MessageId", PStr "msg-1")] (PStr "msg-1")
           eq_refl eq_refl eq_refl eq_refl eq_refl).
Defined.


(** X16 on the complete event, without a topic. *)
Lemma lambda_handler_unset_topic_witness :
  exists report,
    fst (lambda_handler latin1 None Json.dumps
           (publish_validating "msg-1") unit booking_event tt idle) =
      Raise (BotoCoreError (ParamValidationError report)).
Proof.
  refine (lambda_handler_unset_topic latin1 None Json.dumps
            (publish_validating "msg-1") unit
            [("customerId", PStr "cust-1");
             ("payment", PDict [("price", PStr "100")]);
             ("bookingReference", PStr "BK-9")]
            [("price", PStr "100")] tt idle eq_refl _ eq_refl eq_refl).
  intros history request Htopic. unfold publish_validating.
  rewrite Htopic. eexists. reflexivity.
Defined.
